(** * NPS prediction tools: a shallow embedding of [predict_with_rf.py]

    The module exposes two tool functions, [predict_nps_with_rf] and
    [predict_nps_with_skynet], and a console entry point [main].  All three
    are glue around library calls ([os.path.exists], [joblib.load], the
    pandas column selection, [scaler.transform], [model.predict], [input],
    [float], [print]).  The embedding keeps the control flow of the source
    and records every library call in a trace, so that statements about
    what is called, and in which order, can be made. *)

From Stdlib Require Import String Ascii List Bool Arith Lia Permutation.
From Stdlib Require Import ZArith QArith DecimalString.
Import ListNotations.

Close Scope Q_scope.
Open Scope string_scope.

(** ** Exceptions *)

(** A raised Python exception, reduced to what the program observes of it:
    its class name, whether it is an instance of [ValueError] (the test of
    the first handler of [main]) and its [str] (interpolated by the
    f-strings of the handlers).  Only instances of [Exception] are modelled:
    these are what [except Exception] catches. *)
Record exn : Type := mkExn {
  exn_class : string;
  exn_is_ValueError : bool;
  exn_str : string
}.

Definition FileNotFoundError (msg : string) : exn :=
  mkExn "FileNotFoundError" false msg.
Definition Exception_ (msg : string) : exn := mkExn "Exception" false msg.
Definition ValueError (msg : string) : exn := mkExn "ValueError" true msg.
Definition KeyError (msg : string) : exn := mkExn "KeyError" false msg.
Definition IndexError (msg : string) : exn := mkExn "IndexError" false msg.
Definition EOFError (msg : string) : exn := mkExn "EOFError" false msg.

Inductive result (A : Type) : Type :=
| Ok (a : A)
| Raise (e : exn).
Arguments Ok {A} a.
Arguments Raise {A} e.

(** ** Computations: console input and the trace of library calls *)

Inductive event : Type :=
| EExists (path : string)      (* os.path.exists(path) *)
| ELoad (path : string)        (* joblib.load(path) *)
| ETransform                   (* scaler.transform(df) *)
| EPredict                     (* model.predict(scaled_data) *)
| EPrompt (text : string)      (* the prompt written by input(text) *)
| EPrint (line : string).      (* print(line) *)

(** What running a computation gives: the value returned or the exception
    raised, the console lines left unread, and the library calls made,
    oldest first. *)
Record outcome (A : Type) : Type := mkOutcome {
  returned : result A;
  unread : list string;
  events : list event
}.
Arguments mkOutcome {A} returned unread events.
Arguments returned {A} o.
Arguments unread {A} o.
Arguments events {A} o.

(** A computation runs on the console lines still to be read. *)
Definition M (A : Type) : Type := list string -> outcome A.

Definition ret {A} (a : A) : M A := fun i => mkOutcome (Ok a) i [].
Definition raise {A} (e : exn) : M A := fun i => mkOutcome (Raise e) i [].
Definition lift {A} (r : result A) : M A := fun i => mkOutcome r i [].

(** [after t o]: the outcome [o] of a computation that ran after the
    calls [t] were made. *)
Definition after {A} (t : list event) (o : outcome A) : outcome A :=
  match o with
  | mkOutcome r rest t' => mkOutcome r rest (t ++ t')
  end.

Definition bind {A B} (m : M A) (k : A -> M B) : M B :=
  fun i =>
    match m i with
    | mkOutcome (Ok a) rest t => after t (k a rest)
    | mkOutcome (Raise e) rest t => mkOutcome (Raise e) rest t
    end.

(** [try: m except Exception as e: h e] *)
Definition try_except {A} (m : M A) (h : exn -> M A) : M A :=
  fun i =>
    match m i with
    | mkOutcome (Ok a) rest t => mkOutcome (Ok a) rest t
    | mkOutcome (Raise e) rest t => after t (h e rest)
    end.

Definition emit (ev : event) : M unit := fun i => mkOutcome (Ok tt) i [ev].

Declare Scope py_scope.
Delimit Scope py_scope with py.
Notation "x <- m ;; k" := (bind m (fun x => k))
  (at level 61, m at next level, right associativity) : py_scope.
Notation "m ;; k" := (bind m (fun _ => k))
  (at level 61, right associativity) : py_scope.
Open Scope py_scope.

(** Sequencing of calls that only return or raise. *)
Definition and_then {A B} (r : result A) (k : A -> result B) : result B :=
  match r with
  | Ok a => k a
  | Raise e => Raise e
  end.

Definition print (line : string) : M unit := emit (EPrint line).

(** [input(text)]: writes the prompt, then reads one line; at the end of
    the input it raises [EOFError]. *)
Definition input (text : string) : M string :=
  fun i =>
    match i with
    | [] => mkOutcome (Raise (EOFError "EOF when reading a line")) []
                      [EPrompt text]
    | line :: rest => mkOutcome (Ok line) rest [EPrompt text]
    end.

(** [s * n] on strings. *)
Fixpoint str_mul (s : string) (n : nat) : string :=
  match n with
  | O => ""
  | S n' => s ++ str_mul s n'
  end.

Definition nl : string := String (ascii_of_nat 10) "".

(** ** The six feature names *)

Definition name_preDefectCount : string := "上市前缺陷数".
Definition name_preClosedDefectCount : string := "上市前已关闭缺陷数".
Definition name_preResolvedDefectCount : string := "上市前已解决缺陷数".
Definition name_preTrialDefectCount : string := "上市前试用缺陷数".
Definition name_preClosedTrialDefectCount : string := "上市前已关闭试用缺陷数".
Definition name_preResolvedTrialDefectCount : string := "上市前已解决试用缺陷数".

Definition recognized_names : list string :=
  [ name_preDefectCount; name_preClosedDefectCount;
    name_preResolvedDefectCount; name_preTrialDefectCount;
    name_preClosedTrialDefectCount; name_preResolvedTrialDefectCount ].

(** ** The libraries the program calls *)

(** What the program needs of Python and its libraries, as an interface:
    the values passed to the tools, the array [transform] returns, the
    elements of the array [predict] returns, the builtin [float] on a
    string ([None] stands for its [ValueError]), the format specification
    [.2f], and the [str] of the [KeyError] that a pandas column selection
    raises, given the labels asked for and those among them that are not
    columns. *)
Class Library : Type := {
  scalar : Type;
  matrix : Type;
  prediction : Type;
  float_ : string -> option scalar;
  format_2f : prediction -> result string;
  not_in_index : list string -> list string -> string
}.

Section Program.

Context {L : Library}.

(** A table of one row: the column labels, each with the cell of the row. *)
Definition frame : Type := list (string * scalar).

(** A fitted scaler and a fitted regressor, each reduced to the one method
    the program calls; either call may raise. *)
Record Scaler : Type := { transform : frame -> result matrix }.
Record Model : Type := { predict : matrix -> result (list prediction) }.

(** The part of the file system the program reads: [os.path.exists], and
    [joblib.load] at each of the three kinds of artifact the training
    scripts store (a list of names, a scaler, a model).  A load either
    returns the object or raises. *)
Record filesystem : Type := {
  path_exists : string -> bool;
  load_names : string -> result (list string);
  load_scaler : string -> result Scaler;
  load_model : string -> result Model
}.

Definition os_path_exists (fs : filesystem) (path : string) : M bool :=
  emit (EExists path) ;; ret (path_exists fs path).

Definition joblib_load {A} (load : string -> result A) (path : string) : M A :=
  emit (ELoad path) ;; lift (load path).

(** *** The data frame operations *)

(** [pd.DataFrame([d])] for a dict [d]: one row, the columns in the order
    of the keys of [d]. *)
Definition DataFrame (d : list (string * scalar)) : frame := d.

Fixpoint column (df : frame) (label : string) : option scalar :=
  match df with
  | [] => None
  | (l, v) :: df' => if String.eqb l label then Some v else column df' label
  end.

Fixpoint take_columns (df : frame) (labels : list string) : option frame :=
  match labels with
  | [] => Some []
  | l :: ls =>
      match column df l, take_columns df ls with
      | Some v, Some row => Some ((l, v) :: row)
      | _, _ => None
      end
  end.

Definition has_column (df : frame) (label : string) : bool :=
  match column df label with Some _ => true | None => false end.

(** [df[labels]] for a list of labels: the columns in the order of
    [labels]; a label that is not a column makes the selection raise
    [KeyError]. *)
Definition getitem (df : frame) (labels : list string) : result frame :=
  match take_columns df labels with
  | Some row => Ok row
  | None =>
      Raise (KeyError
               (not_in_index labels
                  (filter (fun l => negb (has_column df l)) labels)))
  end.

Definition call_transform (scaler : Scaler) (df : frame) : M matrix :=
  emit ETransform ;; lift (transform scaler df).

Definition call_predict (model : Model) (scaled_data : matrix)
  : M (list prediction) :=
  emit EPredict ;; lift (predict model scaled_data).

(** [a[0]] *)
Definition index0 {A} (a : list A) : result A :=
  match a with
  | x :: _ => Ok x
  | [] => Raise (IndexError "index 0 is out of bounds for axis 0 with size 0")
  end.

(** *** The tools *)

(** The six parameters of a tool. *)
Record args : Type := mkArgs {
  preDefectCount : scalar;
  preClosedDefectCount : scalar;
  preResolvedDefectCount : scalar;
  preTrialDefectCount : scalar;
  preClosedTrialDefectCount : scalar;
  preResolvedTrialDefectCount : scalar
}.

(** The dict literal both tools build from their parameters. *)
Definition input_data (a : args) : list (string * scalar) :=
  [ (name_preDefectCount, preDefectCount a);
    (name_preClosedDefectCount, preClosedDefectCount a);
    (name_preResolvedDefectCount, preResolvedDefectCount a);
    (name_preTrialDefectCount, preTrialDefectCount a);
    (name_preClosedTrialDefectCount, preClosedTrialDefectCount a);
    (name_preResolvedTrialDefectCount, preResolvedTrialDefectCount a) ].

Definition predict_nps_with_rf (fs : filesystem) (a : args) : M prediction :=
  found <- os_path_exists fs "models" ;;
  if negb found
  then raise (FileNotFoundError "找不到models目录，请先运行训练脚本")
  else
    loaded <-
      try_except
        (feature_names <- joblib_load (load_names fs)
                            "models/feature_names.joblib" ;;
         scaler <- joblib_load (load_scaler fs) "models/scaler.joblib" ;;
         rf_model <- joblib_load (load_model fs)
                       "models/random_forest.joblib" ;;
         ret (feature_names, scaler, rf_model))
        (fun e => raise (Exception_ ("加载模型时出错: " ++ exn_str e))) ;;
    let '(feature_names, scaler, rf_model) := loaded in
    let df := DataFrame (input_data a) in
    df <- lift (getitem df feature_names) ;;
    scaled_data <- call_transform scaler df ;;
    out <- call_predict rf_model scaled_data ;;
    lift (index0 out).

Definition predict_nps_with_skynet (fs : filesystem) (a : args)
  : M prediction :=
  found <- os_path_exists fs "skynet_model" ;;
  if negb found
  then raise (FileNotFoundError "找不到skynet_model目录，请先运行训练脚本")
  else
    loaded <-
      try_except
        (feature_names <- joblib_load (load_names fs)
                            "skynet_model/feature_names.joblib" ;;
         scaler <- joblib_load (load_scaler fs) "skynet_model/scaler.joblib" ;;
         skynet_model <- joblib_load (load_model fs)
                           "skynet_model/gradient_boosting.joblib" ;;
         ret (feature_names, scaler, skynet_model))
        (fun e => raise (Exception_ ("加载模型时出错: " ++ exn_str e))) ;;
    let '(feature_names, scaler, skynet_model) := loaded in
    let df := DataFrame (input_data a) in
    df <- lift (getitem df feature_names) ;;
    scaled_data <- call_transform scaler df ;;
    out <- call_predict skynet_model scaled_data ;;
    lift (index0 out).

(** The binding of the names to the parameters: [bound a n v] when the
    parameter that the dict literal files under the name [n] has the value
    [v] in the call [a]. *)
Inductive bound (a : args) : string -> scalar -> Prop :=
| bound_preDefectCount :
    bound a name_preDefectCount (preDefectCount a)
| bound_preClosedDefectCount :
    bound a name_preClosedDefectCount (preClosedDefectCount a)
| bound_preResolvedDefectCount :
    bound a name_preResolvedDefectCount (preResolvedDefectCount a)
| bound_preTrialDefectCount :
    bound a name_preTrialDefectCount (preTrialDefectCount a)
| bound_preClosedTrialDefectCount :
    bound a name_preClosedTrialDefectCount (preClosedTrialDefectCount a)
| bound_preResolvedTrialDefectCount :
    bound a name_preResolvedTrialDefectCount (preResolvedTrialDefectCount a).

(** The predictor as the specification words it: one logic, parameterized
    by the artifact directory and by the name of the model file in it. *)
Definition predictor_spec (dir model_file : string)
  (fs : filesystem) (a : args) : M prediction :=
  found <- os_path_exists fs dir ;;
  if negb found
  then raise (FileNotFoundError ("找不到" ++ dir ++ "目录，请先运行训练脚本"))
  else
    loaded <-
      try_except
        (feature_names <- joblib_load (load_names fs)
                            (dir ++ "/feature_names.joblib") ;;
         scaler <- joblib_load (load_scaler fs) (dir ++ "/scaler.joblib") ;;
         model <- joblib_load (load_model fs) (dir ++ "/" ++ model_file) ;;
         ret (feature_names, scaler, model))
        (fun e => raise (Exception_ ("加载模型时出错: " ++ exn_str e))) ;;
    let '(feature_names, scaler, model) := loaded in
    df <- lift (getitem (DataFrame (input_data a)) feature_names) ;;
    scaled_data <- call_transform scaler df ;;
    out <- call_predict model scaled_data ;;
    lift (index0 out).

(** Two file systems agree on a directory when they give the same answer
    for the directory itself and for every path under it. *)
Definition agree_on (dir : string) (fs1 fs2 : filesystem) : Prop :=
  path_exists fs1 dir = path_exists fs2 dir /\
  forall file : string,
    load_names fs1 (dir ++ "/" ++ file) = load_names fs2 (dir ++ "/" ++ file) /\
    load_scaler fs1 (dir ++ "/" ++ file) = load_scaler fs2 (dir ++ "/" ++ file) /\
    load_model fs1 (dir ++ "/" ++ file) = load_model fs2 (dir ++ "/" ++ file).

(** The two tools side by side, for statements about either of them. *)
Inductive flavor : Type := RandomForest | Skynet.

Definition tool (f : flavor) : filesystem -> args -> M prediction :=
  match f with
  | RandomForest => predict_nps_with_rf
  | Skynet => predict_nps_with_skynet
  end.

Definition artifact_dir (f : flavor) : string :=
  match f with
  | RandomForest => "models"
  | Skynet => "skynet_model"
  end.

Definition model_file (f : flavor) : string :=
  match f with
  | RandomForest => "random_forest.joblib"
  | Skynet => "gradient_boosting.joblib"
  end.

Definition names_path (f : flavor) : string :=
  artifact_dir f ++ "/feature_names.joblib".
Definition scaler_path (f : flavor) : string :=
  artifact_dir f ++ "/scaler.joblib".
Definition model_path (f : flavor) : string :=
  artifact_dir f ++ "/" ++ model_file f.


(** The calls a prediction is made of: looking for the directory, loading
    an artifact, scaling, predicting. *)
Definition is_prediction_call (ev : event) : bool :=
  match ev with
  | EExists _ | ELoad _ | ETransform | EPredict => true
  | EPrompt _ | EPrint _ => false
  end.

(** The calls made after the three artifacts are loaded. *)
Definition inference_events (names : list string) (sc : Scaler) (a : args)
  : list event :=
  match getitem (DataFrame (input_data a)) names with
  | Raise _ => []
  | Ok row =>
      ETransform ::
      match transform sc row with
      | Raise _ => []
      | Ok _ => [EPredict]
      end
  end.

(** *** The console entry point *)

(** [float(s)] on a line read from the console.  The text of its
    [ValueError] is never shown: the handler of [main] prints a text of its
    own. *)
Definition py_float (s : string) : result scalar :=
  match float_ s with
  | Some x => Ok x
  | None =>
      Raise (ValueError ("could not convert string to float: '" ++ s ++ "'"))
  end.

Definition banner : string := str_mul "=" 50.

Definition title : string := "NPS 打分预测工具 (Random Forest版)".

Definition invalid_number_message : string := "请输入有效的数字".

Definition failure_message (e : exn) : string :=
  "预测过程中出错: " ++ exn_str e.

Definition result_line (text : string) : string :=
  "使用 Random Forest 模型预测的 NPS 打分: " ++ text.

(** The body of the [try] statement of [main]. *)
Definition main_body (fs : filesystem) : M unit :=
  print (nl ++ "请输入缺陷指标:") ;;
  s1 <- input "上市前缺陷数: " ;;
  preDefectCount <- lift (py_float s1) ;;
  s2 <- input "上市前已关闭缺陷数: " ;;
  preClosedDefectCount <- lift (py_float s2) ;;
  s3 <- input "上市前已解决缺陷数: " ;;
  preResolvedDefectCount <- lift (py_float s3) ;;
  s4 <- input "上市前试用缺陷数: " ;;
  preTrialDefectCount <- lift (py_float s4) ;;
  s5 <- input "上市前已关闭试用缺陷数: " ;;
  preClosedTrialDefectCount <- lift (py_float s5) ;;
  s6 <- input "上市前已解决试用缺陷数: " ;;
  preResolvedTrialDefectCount <- lift (py_float s6) ;;
  prediction <- predict_nps_with_rf fs
                  (mkArgs preDefectCount
                          preClosedDefectCount
                          preResolvedDefectCount
                          preTrialDefectCount
                          preClosedTrialDefectCount
                          preResolvedTrialDefectCount) ;;
  print (nl ++ banner) ;;
  text <- lift (format_2f prediction) ;;
  print (result_line text) ;;
  print banner.

(** The two [except] clauses of [main], tried in order. *)
Definition main_handler (e : exn) : M unit :=
  if exn_is_ValueError e
  then print invalid_number_message
  else print (failure_message e).

Definition main (fs : filesystem) : M unit :=
  print banner ;;
  print title ;;
  print banner ;;
  try_except (main_body fs) main_handler.

(** A console line that [float] accepts. *)
Definition parses (s : string) : Prop := float_ s <> None.

(** What [main] writes before the [try] statement. *)
Definition header : list event :=
  [EPrint banner; EPrint title; EPrint banner].

(** The six prompts, in the order of the calls of [input]. *)
Definition prompts : list string :=
  [ "上市前缺陷数: "; "上市前已关闭缺陷数: "; "上市前已解决缺陷数: ";
    "上市前试用缺陷数: "; "上市前已关闭试用缺陷数: ";
    "上市前已解决试用缺陷数: " ].

(** What the session has written once it has asked for [n] inputs. *)
Definition asking (n : nat) : list event :=
  EPrint (nl ++ "请输入缺陷指标:") :: map EPrompt (firstn n prompts).

(** What the session writes after a prediction whose formatted text is
    [text]. *)
Definition report (text : string) : list event :=
  [EPrint (nl ++ banner); EPrint (result_line text); EPrint banner].


(** The message of the handler that catches [e]. *)
Definition handler_message (e : exn) : string :=
  if exn_is_ValueError e then invalid_number_message else failure_message e.

(** The calls of a whole run of a tool, in the order of the source. *)
Definition call_sequence (f : flavor) : list event :=
  [ EExists (artifact_dir f); ELoad (names_path f); ELoad (scaler_path f);
    ELoad (model_path f); ETransform; EPredict ].

(** The exception of the first of the three loads that raises, if any. *)
Definition load_failure (f : flavor) (fs : filesystem) : option exn :=
  match load_names fs (names_path f) with
  | Raise e => Some e
  | Ok _ =>
      match load_scaler fs (scaler_path f) with
      | Raise e => Some e
      | Ok _ =>
          match load_model fs (model_path f) with
          | Raise e => Some e
          | Ok _ => None
          end
      end
  end.

(** What a path of the disk holds. *)
Inductive entry : Type := Absent | RegularFile | Directory.

(** [os.path.exists] answers for whatever is at the path: a directory or a
    file of another kind alike. *)
Definition exists_of (k : entry) : bool :=
  match k with
  | Absent => false
  | RegularFile | Directory => true
  end.

(** The file system [fs] is that of a disk holding [kind p] at each path
    [p]. *)
Definition shows (kind : string -> entry) (fs : filesystem) : Prop :=
  forall p, path_exists fs p = exists_of (kind p).



End Program.

(** * A small instance, to run the program on

    Rational numbers for the values, the part of [float] and of the format
    [.2f] that is exact on them, a standard scaler and a one-split
    regressor.  The examples at the end of the file run the tools and
    [main] on it. *)

Module Demo.

Definition digit_value (c : ascii) : option Z :=
  let n := nat_of_ascii c in
  if ((48 <=? n) && (n <=? 57))%nat then Some (Z.of_nat (n - 48)) else None.

Fixpoint read_digits (s : string) (acc : Z) : option Z :=
  match s with
  | "" => Some acc
  | String c s' =>
      match digit_value c with
      | Some d => read_digits s' (10 * acc + d)%Z
      | None => None
      end
  end.

(** [float] on the lines made of decimal digits: the integer they write.
    Here every other line is refused. *)
Definition float_of_digits (s : string) : option Q :=
  match s with
  | "" => None
  | _ => option_map inject_Z (read_digits s 0)
  end.

(** The nearest integer, ties to even. *)
Definition round_half_even (q : Q) : Z :=
  let d := Z.pos (Qden q) in
  let f := (Qnum q / d)%Z in
  match (2 * (Qnum q - f * d) ?= d)%Z with
  | Lt => f
  | Gt => (f + 1)%Z
  | Eq => if Z.even f then f else (f + 1)%Z
  end.

Definition decimal (n : Z) : string := NilZero.string_of_int (Z.to_int n).

(** The format [.2f] of a rational number. *)
Definition format_fixed2 (q : Q) : string :=
  let n := round_half_even (q * 100) in
  let a := Z.abs n in
  let cents := (a mod 100)%Z in
  (if (n <? 0)%Z then "-" else "")
  ++ decimal (a / 100) ++ "."
  ++ (if (cents <? 10)%Z then "0" else "") ++ decimal cents.

Definition library : Library := {|
  scalar := Q;
  matrix := list Q;
  prediction := Q;
  float_ := float_of_digits;
  format_2f := fun q => Ok (format_fixed2 q);
  not_in_index := fun _ missing =>
    "[" ++ String.concat ", " missing ++ "] not in index"
|}.

#[local] Existing Instance library.

Fixpoint scale_row (row mean scale : list Q) : list Q :=
  match row, mean, scale with
  | x :: row', m :: mean', s :: scale' =>
      ((x - m) / s)%Q :: scale_row row' mean' scale'
  | _, _, _ => []
  end.

(** A standard scaler fitted on [length mean] features: it refuses a row
    of another width with a [ValueError]. *)
Definition standard_scaler (mean scale : list Q) : Scaler := {|
  transform := fun df =>
    if Nat.eqb (length df) (length mean)
    then Ok (scale_row (map snd df) mean scale)
    else Raise (ValueError "X has a number of features other than the one StandardScaler is expecting")
|}.

(** A regressor of one split on the first feature. *)
Definition stump (threshold low high : Q) : Model := {|
  predict := fun scaled_data =>
    match scaled_data with
    | x :: _ => Ok [if Qle_bool x threshold then low else high]
    | [] => Raise (ValueError "Found array with 0 feature(s)")
    end
|}.

Definition scaler : Scaler :=
  standard_scaler [10; 8; 6; 4; 2; 1]%Q [2; 2; 2; 1; 1; 1]%Q.

Definition model : Model := stump 0%Q (715 # 10) (4225 # 100).

Definition no_such_file (path : string) : exn :=
  FileNotFoundError ("[Errno 2] No such file or directory: '" ++ path ++ "'").

(** A file system whose [models] directory holds the three artifacts,
    the feature-name list being [names]. *)
Definition fs_with (names : list string) : filesystem := {|
  path_exists := fun p => String.eqb p "models";
  load_names := fun p =>
    if String.eqb p "models/feature_names.joblib" then Ok names
    else Raise (no_such_file p);
  load_scaler := fun p =>
    if String.eqb p "models/scaler.joblib" then Ok scaler
    else Raise (no_such_file p);
  load_model := fun p =>
    if String.eqb p "models/random_forest.joblib" then Ok model
    else Raise (no_such_file p)
|}.

(** The feature-name list the training script stored: the six names, in
    an order of its own. *)
Definition trained_names : list string :=
  [ name_preTrialDefectCount; name_preClosedTrialDefectCount;
    name_preResolvedTrialDefectCount; name_preDefectCount;
    name_preClosedDefectCount; name_preResolvedDefectCount ].

Definition fs : filesystem := fs_with trained_names.

(** No artifact directory at all. *)
Definition fs_empty : filesystem := {|
  path_exists := fun _ => false;
  load_names := fun p => Raise (no_such_file p);
  load_scaler := fun p => Raise (no_such_file p);
  load_model := fun p => Raise (no_such_file p)
|}.

Fixpoint starts_with (prefix s : string) : bool :=
  match prefix, s with
  | "", _ => true
  | String a prefix', String b s' =>
      Ascii.eqb a b && starts_with prefix' s'
  | String _ _, "" => false
  end.

Definition corrupt : exn := mkExn "UnpicklingError" false "invalid load key".

(** [fs], with a [skynet_model] directory besides, whose files do not
    unpickle. *)
Definition fs_corrupt_skynet : filesystem := {|
  path_exists := fun p => String.eqb p "skynet_model" || path_exists fs p;
  load_names := fun p =>
    if starts_with "skynet_model/" p then Raise corrupt else load_names fs p;
  load_scaler := fun p =>
    if starts_with "skynet_model/" p then Raise corrupt else load_scaler fs p;
  load_model := fun p =>
    if starts_with "skynet_model/" p then Raise corrupt else load_model fs p
|}.

Definition one_to_six : args := mkArgs 1%Q 2%Q 3%Q 4%Q 5%Q 6%Q.

(** A feature-name list with a name the tools do not know. *)
Definition unknown_names : list string := [name_preDefectCount; "用户数"].

(** A feature-name list one name short of what [scaler] was fitted on. *)
Definition five_names : list string :=
  [ name_preDefectCount; name_preClosedDefectCount;
    name_preResolvedDefectCount; name_preTrialDefectCount;
    name_preClosedTrialDefectCount ].

(** [fs], with a scaler file written by a newer pickle: its load raises an
    instance of [ValueError]. *)
Definition fs_newer_pickle : filesystem := {|
  path_exists := path_exists fs;
  load_names := load_names fs;
  load_scaler := fun p =>
    if String.eqb p "models/scaler.joblib"
    then Raise (ValueError "unsupported pickle protocol: 5")
    else load_scaler fs p;
  load_model := load_model fs
|}.

(** [one_to_six], but for the last parameter. *)
Definition one_to_five_and_99 : args := mkArgs 1%Q 2%Q 3%Q 4%Q 5%Q 99%Q.

(** A disk with a regular file named [models], and nothing else. *)
Definition models_is_a_file (p : string) : entry :=
  if String.eqb p "models" then RegularFile else Absent.

Definition not_a_directory (path : string) : exn :=
  mkExn "NotADirectoryError" false
    ("[Errno 20] Not a directory: '" ++ path ++ "'").

Definition no_entry (p : string) : exn :=
  if starts_with "models/" p then not_a_directory p else no_such_file p.

(** The file system of that disk: no path under the file can be opened. *)
Definition fs_models_is_a_file : filesystem := {|
  path_exists := fun p => exists_of (models_is_a_file p);
  load_names := fun p => Raise (no_entry p);
  load_scaler := fun p => Raise (no_entry p);
  load_model := fun p => Raise (no_entry p)
|}.

(** An instance whose models predict labels: the format [.2f] refuses a
    string with a [ValueError]. *)
Definition label_library : Library := {|
  scalar := Q;
  matrix := list Q;
  prediction := string;
  float_ := float_of_digits;
  format_2f := fun _ =>
    Raise (ValueError "Unknown format code 'f' for object of type 'str'");
  not_in_index := fun _ missing =>
    "[" ++ String.concat ", " missing ++ "] not in index"
|}.

(** A file system whose [models] directory holds a scaler that leaves the
    row as it is and a classifier that answers [high]. *)
Definition fs_labels : @filesystem label_library := {|
  path_exists := fun p => String.eqb p "models";
  load_names := fun p =>
    if String.eqb p "models/feature_names.joblib" then Ok trained_names
    else Raise (no_such_file p);
  load_scaler := fun p =>
    if String.eqb p "models/scaler.joblib"
    then Ok (@Build_Scaler label_library (fun df => Ok (map snd df)))
    else Raise (no_such_file p);
  load_model := fun p =>
    if String.eqb p "models/random_forest.joblib"
    then Ok (@Build_Model label_library (fun _ => Ok ["high"]))
    else Raise (no_such_file p)
|}.

End Demo.

(** * Properties *)

Section Properties.

Context {L : Library}.

(** ** Both tools are the one predictor of the specification *)

Lemma tool_is_predictor_spec (f : flavor) (fs : filesystem) (a : args) :
  tool f fs a = predictor_spec (artifact_dir f) (model_file f) fs a.
Proof. destruct f; reflexivity. Qed.

Ltac run_tool :=
  unfold predictor_spec, bind, try_except, after, os_path_exists,
    joblib_load, call_transform, call_predict, emit, lift, ret, raise; simpl.

Lemma predictor_missing_dir (dir mf : string) (fs : filesystem) (a : args)
  (i : list string) :
  path_exists fs dir = false ->
  predictor_spec dir mf fs a i
  = mkOutcome
      (Raise (FileNotFoundError ("找不到" ++ dir ++ "目录，请先运行训练脚本")))
      i [EExists dir].
Proof.
  intros H. run_tool. rewrite H. reflexivity.
Qed.

Lemma predictor_names_fail (dir mf : string) (fs : filesystem) (a : args)
  (i : list string) (e : exn) :
  path_exists fs dir = true ->
  load_names fs (dir ++ "/feature_names.joblib") = Raise e ->
  predictor_spec dir mf fs a i
  = mkOutcome (Raise (Exception_ ("加载模型时出错: " ++ exn_str e))) i
      [EExists dir; ELoad (dir ++ "/feature_names.joblib")].
Proof.
  intros Hd Hn. run_tool. rewrite Hd. simpl. rewrite Hn. reflexivity.
Qed.

Lemma predictor_scaler_fail (dir mf : string) (fs : filesystem) (a : args)
  (i : list string) (names : list string) (e : exn) :
  path_exists fs dir = true ->
  load_names fs (dir ++ "/feature_names.joblib") = Ok names ->
  load_scaler fs (dir ++ "/scaler.joblib") = Raise e ->
  predictor_spec dir mf fs a i
  = mkOutcome (Raise (Exception_ ("加载模型时出错: " ++ exn_str e))) i
      [EExists dir; ELoad (dir ++ "/feature_names.joblib");
       ELoad (dir ++ "/scaler.joblib")].
Proof.
  intros Hd Hn Hs. run_tool. rewrite Hd. simpl. rewrite Hn. simpl.
  rewrite Hs. reflexivity.
Qed.

Lemma predictor_model_fail (dir mf : string) (fs : filesystem) (a : args)
  (i : list string) (names : list string) (sc : Scaler) (e : exn) :
  path_exists fs dir = true ->
  load_names fs (dir ++ "/feature_names.joblib") = Ok names ->
  load_scaler fs (dir ++ "/scaler.joblib") = Ok sc ->
  load_model fs (dir ++ "/" ++ mf) = Raise e ->
  predictor_spec dir mf fs a i
  = mkOutcome (Raise (Exception_ ("加载模型时出错: " ++ exn_str e))) i
      [EExists dir; ELoad (dir ++ "/feature_names.joblib");
       ELoad (dir ++ "/scaler.joblib"); ELoad (dir ++ "/" ++ mf)].
Proof.
  intros Hd Hn Hs Hm. simpl in Hm. run_tool. rewrite Hd. simpl.
  rewrite Hn. simpl. rewrite Hs. simpl. rewrite Hm. reflexivity.
Qed.

Lemma predictor_loaded (dir mf : string) (fs : filesystem) (a : args)
  (i : list string) (names : list string) (sc : Scaler) (m : Model) :
  path_exists fs dir = true ->
  load_names fs (dir ++ "/feature_names.joblib") = Ok names ->
  load_scaler fs (dir ++ "/scaler.joblib") = Ok sc ->
  load_model fs (dir ++ "/" ++ mf) = Ok m ->
  predictor_spec dir mf fs a i
  = mkOutcome
      (and_then (getitem (DataFrame (input_data a)) names) (fun row =>
       and_then (transform sc row) (fun scaled_data =>
       and_then (predict m scaled_data) index0)))
      i
      ([EExists dir; ELoad (dir ++ "/feature_names.joblib");
        ELoad (dir ++ "/scaler.joblib"); ELoad (dir ++ "/" ++ mf)]
       ++ inference_events names sc a).
Proof.
  intros Hd Hn Hs Hm. simpl in Hm. unfold inference_events. run_tool.
  rewrite Hd. simpl.
  rewrite Hn. simpl. rewrite Hs. simpl. rewrite Hm. simpl.
  destruct (getitem (DataFrame (input_data a)) names) as [row|e]; simpl;
    [|reflexivity].
  destruct (transform sc row) as [scaled|e]; simpl; [|reflexivity].
  destruct (predict m scaled) as [out|e]; simpl; reflexivity.
Qed.

(** ** Column selection *)

Lemma recognized_names_NoDup : NoDup recognized_names.
Proof.
  repeat constructor; simpl; intuition discriminate.
Qed.

Lemma column_recognized (a : args) (n : string) :
  In n recognized_names ->
  exists v, column (input_data a) n = Some v /\ bound a n v.
Proof.
  intros H. simpl in H.
  repeat (destruct H as [H|H]; [subst n; eexists; split;
                                  [reflexivity|constructor]|]).
  contradiction.
Qed.

Lemma column_unrecognized (a : args) (n : string) :
  ~ In n recognized_names -> column (input_data a) n = None.
Proof.
  intros H. unfold input_data, column.
  repeat match goal with
         | |- context [String.eqb ?x n] =>
             destruct (String.eqb_spec x n) as [E|_];
             [exfalso; apply H; rewrite <- E; simpl; tauto|]
         end.
  reflexivity.
Qed.

Lemma take_columns_Some (df : frame) (labels : list string) :
  (forall l, In l labels -> exists v, column df l = Some v) ->
  exists row,
    take_columns df labels = Some row /\
    map fst row = labels /\
    Forall (fun c => column df (fst c) = Some (snd c)) row.
Proof.
  induction labels as [|l ls IH]; intros H.
  - exists []. repeat split. constructor.
  - destruct (H l (or_introl eq_refl)) as [v Hv].
    destruct IH as (row & Hrow & Hfst & Hall).
    { intros l' Hl'. apply H. now right. }
    exists ((l, v) :: row). simpl. rewrite Hv, Hrow, Hfst.
    repeat split. constructor; assumption.
Qed.

Lemma take_columns_None (df : frame) (labels : list string) (l : string) :
  In l labels -> column df l = None -> take_columns df labels = None.
Proof.
  induction labels as [|l' ls IH]; intros Hin Hl; [contradiction|].
  simpl. destruct Hin as [->|Hin].
  - now rewrite Hl.
  - rewrite (IH Hin Hl). now destruct (column df l').
Qed.

Lemma column_Permutation (d d' : list (string * scalar)) (n : string) :
  Permutation d d' -> NoDup (map fst d) -> column d' n = column d n.
Proof.
  induction 1 as [|[l v] d d' HP IH|[l1 v1] [l2 v2] d|d1 d2 d3 HP1 IH1 HP2 IH2];
    intros ND.
  - reflexivity.
  - simpl. inversion ND; subst. now rewrite IH.
  - simpl. destruct (String.eqb_spec l1 n) as [E1|_];
      destruct (String.eqb_spec l2 n) as [E2|_]; try reflexivity.
    subst. simpl in ND. inversion ND as [|? ? Hnot _]; subst.
    exfalso. apply Hnot. now left.
  - rewrite IH2, IH1; [reflexivity|assumption|].
    eapply Permutation_NoDup; [|exact ND]. now apply Permutation_map.
Qed.

Lemma take_columns_Permutation (d d' : list (string * scalar))
  (labels : list string) :
  Permutation d d' -> NoDup (map fst d) ->
  take_columns d' labels = take_columns d labels.
Proof.
  intros HP ND. induction labels as [|l ls IH]; [reflexivity|].
  simpl. now rewrite IH, (column_Permutation d d' l HP ND).
Qed.

(** ** The tools *)

(** C1. Once the three artifacts are loaded, what either tool returns is
    the first element of [model.predict] applied to [scaler.transform] of
    the assembled row, as it is: the same value when every step returns,
    the same exception when one of them raises. *)
Theorem prediction_is_raw_model_output (f : flavor) (fs : filesystem)
  (a : args) (i : list string)
  (names : list string) (sc : Scaler) (m : Model) :
  path_exists fs (artifact_dir f) = true ->
  load_names fs (names_path f) = Ok names ->
  load_scaler fs (scaler_path f) = Ok sc ->
  load_model fs (model_path f) = Ok m ->
  returned (tool f fs a i)
  = and_then (getitem (DataFrame (input_data a)) names) (fun row =>
    and_then (transform sc row) (fun scaled_data =>
    and_then (predict m scaled_data) index0)).
Proof.
  intros Hd Hn Hs Hm. rewrite tool_is_predictor_spec.
  now rewrite (predictor_loaded _ _ fs a i names sc m Hd Hn Hs Hm).
Qed.

(** C2. When every name of the feature-name list is one of the six
    recognized names, the selection returns a row whose labels are the list
    itself, in its order, each column holding the parameter bound to its
    label; and the row is the same whatever the order of the six entries of
    the input dict. *)
Theorem assembled_row_follows_feature_names (a : args)
  (names : list string) :
  (forall n, In n names -> In n recognized_names) ->
  exists row,
    getitem (DataFrame (input_data a)) names = Ok row /\
    map fst row = names /\
    Forall (fun c => bound a (fst c) (snd c)) row /\
    forall d, Permutation (input_data a) d ->
              getitem (DataFrame d) names = Ok row.
Proof.
  intros Hrec.
  destruct (take_columns_Some (input_data a) names) as (row & Hrow & Hfst & Hall).
  { intros l Hl. destruct (column_recognized a l (Hrec l Hl)) as (v & Hv & _).
    now exists v. }
  exists row. unfold getitem, DataFrame. rewrite Hrow.
  split; [reflexivity|]. split; [assumption|]. split.
  - rewrite Forall_forall in *. intros [l v] Hin. cbn [fst snd].
    specialize (Hall _ Hin). cbn [fst snd] in Hall.
    assert (Hl : In l names).
    { rewrite <- Hfst. now apply (in_map fst row (l, v)). }
    destruct (column_recognized a l (Hrec l Hl)) as (v' & Hv' & Hb).
    rewrite Hall in Hv'. now inversion Hv'; subst.
  - intros d HP.
    rewrite (take_columns_Permutation (input_data a) d names HP).
    + now rewrite Hrow.
    + exact recognized_names_NoDup.
Qed.

(** C3. When the loaded feature-name list holds a name that is not one of
    the six recognized names, the selection raises [KeyError], and so does
    either tool, right after the three loads: nothing is scaled and nothing
    is predicted. *)
Theorem unknown_feature_name_raises (f : flavor) (fs : filesystem)
  (a : args) (i : list string)
  (names : list string) (sc : Scaler) (m : Model) :
  (exists n, In n names /\ ~ In n recognized_names) ->
  path_exists fs (artifact_dir f) = true ->
  load_names fs (names_path f) = Ok names ->
  load_scaler fs (scaler_path f) = Ok sc ->
  load_model fs (model_path f) = Ok m ->
  exists msg,
    getitem (DataFrame (input_data a)) names = Raise (KeyError msg) /\
    tool f fs a i
    = mkOutcome (Raise (KeyError msg)) i
        [EExists (artifact_dir f); ELoad (names_path f);
         ELoad (scaler_path f); ELoad (model_path f)].
Proof.
  intros (n & Hin & Hnot) Hd Hn Hs Hm.
  assert (Hg : exists msg,
             getitem (DataFrame (input_data a)) names = Raise (KeyError msg)).
  { unfold getitem, DataFrame.
    rewrite (take_columns_None _ names n Hin (column_unrecognized a n Hnot)).
    eexists. reflexivity. }
  destruct Hg as (msg & Hg). exists msg. split; [assumption|].
  rewrite tool_is_predictor_spec.
  rewrite (predictor_loaded _ _ fs a i names sc m Hd Hn Hs Hm).
  unfold inference_events. rewrite Hg. reflexivity.
Qed.

(** C4 (amended). When [os.path.exists] finds nothing at the path of its
    artifact directory, neither a directory nor a file of another kind,
    either tool raises [FileNotFoundError] with a message that holds the
    name of the directory; looking at the path is the only call it has
    made, so no artifact file was read. *)
Theorem missing_directory_raises_first (f : flavor) (fs : filesystem)
  (a : args) (i : list string) :
  path_exists fs (artifact_dir f) = false ->
  exists msg,
    tool f fs a i
    = mkOutcome (Raise (FileNotFoundError msg)) i [EExists (artifact_dir f)] /\
    exists before after, msg = before ++ artifact_dir f ++ after.
Proof.
  intros Hd. rewrite tool_is_predictor_spec.
  rewrite (predictor_missing_dir _ _ fs a i Hd).
  eexists. split; [reflexivity|].
  exists "找不到", "目录，请先运行训练脚本". reflexivity.
Qed.


(** C9. Each tool is the one predictor of the specification at its own
    directory and model file; hence on two file systems that agree on the
    directory of a tool, the tool has the same outcome, whatever the other
    directory holds. *)
Theorem flavors_share_logic_and_are_independent (f : flavor) :
  (forall fs a i,
      tool f fs a i = predictor_spec (artifact_dir f) (model_file f) fs a i) /\
  (forall fs1 fs2 a i,
      agree_on (artifact_dir f) fs1 fs2 -> tool f fs1 a i = tool f fs2 a i).
Proof.
  split.
  - intros fs a i. now rewrite tool_is_predictor_spec.
  - intros fs1 fs2 a i [Hd Hfiles].
    rewrite !tool_is_predictor_spec.
    destruct (Hfiles "feature_names.joblib") as (Hn & _ & _).
    destruct (Hfiles "scaler.joblib") as (_ & Hs & _).
    destruct (Hfiles (model_file f)) as (_ & _ & Hm).
    simpl in Hn, Hs, Hm. run_tool. rewrite Hd, Hn, Hs, Hm. reflexivity.
Qed.

(** ** The console entry point *)

Lemma main_run (fs : filesystem) (i : list string) :
  main fs i
  = match main_body fs i with
    | mkOutcome (Ok _) rest t => mkOutcome (Ok tt) rest (header ++ t)
    | mkOutcome (Raise e) rest t =>
        mkOutcome (Ok tt) rest (header ++ t ++ [EPrint (handler_message e)])
    end.
Proof.
  unfold main, main_handler, handler_message, bind, try_except, after, print,
    emit.
  destruct (main_body fs i) as [[[]|e] rest t].
  - reflexivity.
  - now destruct (exn_is_ValueError e).
Qed.

(** What the session does once the six inputs are parsed. *)
Lemma main_body_parsed (fs : filesystem) (s1 s2 s3 s4 s5 s6 : string)
  (v1 v2 v3 v4 v5 v6 : scalar) (rest : list string) :
  float_ s1 = Some v1 -> float_ s2 = Some v2 -> float_ s3 = Some v3 ->
  float_ s4 = Some v4 -> float_ s5 = Some v5 -> float_ s6 = Some v6 ->
  main_body fs (s1 :: s2 :: s3 :: s4 :: s5 :: s6 :: rest)
  = after (asking 6)
      (match predict_nps_with_rf fs (mkArgs v1 v2 v3 v4 v5 v6) rest with
       | mkOutcome (Ok y) rest' t =>
           match format_2f y with
           | Ok text => mkOutcome (Ok tt) rest' (t ++ report text)
           | Raise e =>
               mkOutcome (Raise e) rest' (t ++ [EPrint (nl ++ banner)])
           end
       | mkOutcome (Raise e) rest' t => mkOutcome (Raise e) rest' t
       end).
Proof.
  intros H1 H2 H3 H4 H5 H6.
  unfold main_body, bind, after, print, emit, input, lift, py_float.
  rewrite H1, H2, H3, H4, H5, H6.
  destruct (predict_nps_with_rf fs (mkArgs v1 v2 v3 v4 v5 v6) rest)
    as [[y|e] rest' t]; [|reflexivity].
  destruct (format_2f y) as [text|e]; reflexivity.
Qed.

(** How the reading of [n] lines from the input [i] can go: the input
    ends first, or a line does not parse, or all [n] lines parse. *)
Lemma read_cases (n : nat) (i : list string) :
  (length i < n /\ Forall parses i) \/
  (exists pre s rest,
      i = (pre ++ s :: rest)%list /\ length pre < n /\ Forall parses pre /\
      float_ s = None) \/
  (exists pre rest,
      i = (pre ++ rest)%list /\ length pre = n /\ Forall parses pre).
Proof.
  revert i. induction n as [|n IH]; intros i.
  - right. right. exists [], i. repeat split. constructor.
  - destruct i as [|s i].
    + left. split; [simpl; lia|constructor].
    + destruct (float_ s) as [v|] eqn:E.
      * assert (Hs : parses s) by (unfold parses; congruence).
        destruct (IH i) as [[Hlen Hall]|[(pre & s' & rest & -> & Hlen & Hall & E')
                                        |(pre & rest & -> & Hlen & Hall)]].
        -- left. split; [simpl; lia|now constructor].
        -- right. left. exists (s :: pre), s', rest.
           repeat split; [simpl; lia|now constructor|assumption].
        -- right. right. exists (s :: pre), rest.
           repeat split; [simpl; lia|now constructor].
      * right. left. exists [], s, i. repeat split; [simpl; lia|constructor|assumption].
Qed.

Ltac parsed_lines H :=
  repeat match type of H with
         | Forall parses (?s :: _) =>
             let Hs := fresh "Hs" in
             let H' := fresh "H" in
             let v := fresh "v" in
             let E := fresh "E" in
             inversion H as [|? ? Hs H']; subst; clear H;
             destruct (float_ s) as [v|] eqn:E; [|now elim Hs];
             clear Hs; rename H' into H
         end.

(** The session stops at the first line it cannot read or parse. *)
Lemma main_body_stops (fs : filesystem) (pre : list string) :
  length pre < 6 -> Forall parses pre ->
  main_body fs pre
  = mkOutcome (Raise (EOFError "EOF when reading a line")) []
      (asking (S (length pre))) /\
  forall s rest,
    float_ s = None ->
    main_body fs (pre ++ s :: rest)%list
    = mkOutcome
        (Raise (ValueError ("could not convert string to float: '" ++ s ++ "'")))
        rest (asking (S (length pre))).
Proof.
  intros Hlen Hall.
  destruct pre as [|s1 [|s2 [|s3 [|s4 [|s5 [|s6 pre]]]]]];
    [| | | | | |simpl in Hlen; lia];
    parsed_lines Hall; (split; [|intros s rest Hs]);
    unfold main_body, bind, after, print, emit, input, lift, py_float;
    cbn [app length];
    repeat match goal with
           | E : float_ ?x = _ |- context [float_ ?x] => rewrite E
           end;
    reflexivity.
Qed.

Lemma tool_events_are_calls (f : flavor) (fs : filesystem) (a : args)
  (i : list string) :
  Forall (fun ev => is_prediction_call ev = true) (events (tool f fs a i)).
Proof.
  rewrite tool_is_predictor_spec.
  destruct (path_exists fs (artifact_dir f)) eqn:Hd.
  2:{ rewrite (predictor_missing_dir _ _ fs a i Hd). now repeat constructor. }
  destruct (load_names fs (names_path f)) as [names|e] eqn:Hn.
  2:{ rewrite (predictor_names_fail _ _ fs a i e Hd Hn).
      now repeat constructor. }
  destruct (load_scaler fs (scaler_path f)) as [sc|e] eqn:Hs.
  2:{ rewrite (predictor_scaler_fail _ _ fs a i names e Hd Hn Hs).
      now repeat constructor. }
  destruct (load_model fs (model_path f)) as [m|e] eqn:Hm.
  2:{ rewrite (predictor_model_fail _ _ fs a i names sc e Hd Hn Hs Hm).
      now repeat constructor. }
  rewrite (predictor_loaded _ _ fs a i names sc m Hd Hn Hs Hm).
  cbn [events]. apply Forall_app. split; [now repeat constructor|].
  unfold inference_events.
  destruct (getitem (DataFrame (input_data a)) names) as [row|e];
    [|constructor].
  destruct (transform sc row); now repeat constructor.
Qed.

Lemma asking_no_call (n : nat) :
  Forall (fun ev => is_prediction_call ev = false) (asking n).
Proof.
  unfold asking. constructor; [reflexivity|].
  induction (firstn n prompts); now constructor.
Qed.




Lemma skipn_past (pre : list string) (s : string) (rest : list string) :
  skipn (S (length pre)) (pre ++ s :: rest) = rest.
Proof. induction pre as [|x pre IH]; [reflexivity|exact IH]. Qed.

Lemma parsed_prefix (pre rest : list string) (k : nat) (s : string) :
  Forall parses pre -> k < length pre ->
  nth_error (pre ++ rest) k = Some s -> float_ s <> None.
Proof.
  intros Hall Hk Hnth. rewrite nth_error_app1 in Hnth by assumption.
  rewrite Forall_forall in Hall. apply Hall. eapply nth_error_In, Hnth.
Qed.

(** C6. On the console lines 1 to 6, which [float] reads as the values
    [v1] to [v6], [main] calls the random-forest tool with [v1] to [v6] as
    its six parameters, in this order, and when the tool returns [y] it
    prints the two-decimal text of [y] between two banners. *)
Theorem main_predicts_from_six_lines (fs : filesystem)
  (v1 v2 v3 v4 v5 v6 : scalar) (rest rest' : list string)
  (t : list event) (y : prediction) (text : string) :
  float_ "1" = Some v1 -> float_ "2" = Some v2 -> float_ "3" = Some v3 ->
  float_ "4" = Some v4 -> float_ "5" = Some v5 -> float_ "6" = Some v6 ->
  predict_nps_with_rf fs (mkArgs v1 v2 v3 v4 v5 v6) rest
  = mkOutcome (Ok y) rest' t ->
  format_2f y = Ok text ->
  main fs ("1" :: "2" :: "3" :: "4" :: "5" :: "6" :: rest)
  = mkOutcome (Ok tt) rest'
      (header ++ asking 6 ++ t
       ++ [EPrint (nl ++ banner);
           EPrint ("使用 Random Forest 模型预测的 NPS 打分: " ++ text);
           EPrint banner]).
Proof.
  intros H1 H2 H3 H4 H5 H6 Hrun Hfmt.
  rewrite main_run, (main_body_parsed fs _ _ _ _ _ _ _ _ _ _ _ _ rest
                       H1 H2 H3 H4 H5 H6), Hrun, Hfmt.
  reflexivity.
Qed.

(** C7. When one of the six lines that [main] asks for does not parse as
    a number, [main] stops at the first such line: it has asked for the
    lines up to that one, it prints the invalid-number message and returns,
    and it has made no call of a prediction (no look at the directory, no
    load, no transform, no predict). *)
Theorem unparsable_line_aborts_session (fs : filesystem) (i : list string)
  (k : nat) (s : string) :
  k < 6 -> nth_error i k = Some s -> float_ s = None ->
  exists j,
    j <= k /\
    main fs i
    = mkOutcome (Ok tt) (skipn (S j) i)
        (header ++ asking (S j) ++ [EPrint invalid_number_message]) /\
    Forall (fun ev => is_prediction_call ev = false) (events (main fs i)).
Proof.
  intros Hk Hnth Hs.
  destruct (read_cases 6 i)
    as [[Hlen Hall]|[(pre & s' & rest & -> & Hlen & Hall & E)
                    |(pre & rest & -> & Hlen & Hall)]].
  - exfalso. rewrite Forall_forall in Hall.
    apply (Hall s); [eapply nth_error_In, Hnth|assumption].
  - assert (Hj : length pre <= k).
    { destruct (le_lt_dec (length pre) k) as [Hle|Hlt]; [assumption|].
      exfalso. now apply (parsed_prefix pre (s' :: rest) k s Hall Hlt Hnth). }
    assert (Hrun : main fs (pre ++ s' :: rest)%list
                   = mkOutcome (Ok tt) rest
                       (header ++ asking (S (length pre))
                        ++ [EPrint invalid_number_message])).
    { rewrite main_run.
      destruct (main_body_stops fs pre Hlen Hall) as [_ H].
      now rewrite (H s' rest E). }
    exists (length pre). split; [assumption|]. split.
    + now rewrite skipn_past.
    + rewrite Hrun. cbn [events]. apply Forall_app.
      split; [now repeat constructor|]. apply Forall_app.
      split; [apply asking_no_call|now repeat constructor].
  - exfalso. rewrite <- Hlen in Hk.
    now apply (parsed_prefix pre rest k s Hall Hk Hnth).
Qed.

(** C8. [main] always returns: whatever the console lines and the file
    system, no exception leaves it.  In particular, when the six lines
    parse and the tool raises [e], in loading or in predicting, [main]
    prints the message of the handler that catches [e] and returns. *)
Theorem main_catches_every_error (fs : filesystem) :
  (forall i, returned (main fs i) = Ok tt) /\
  (forall s1 s2 s3 s4 s5 s6 v1 v2 v3 v4 v5 v6 rest e rest' t,
      float_ s1 = Some v1 -> float_ s2 = Some v2 -> float_ s3 = Some v3 ->
      float_ s4 = Some v4 -> float_ s5 = Some v5 -> float_ s6 = Some v6 ->
      predict_nps_with_rf fs (mkArgs v1 v2 v3 v4 v5 v6) rest
      = mkOutcome (Raise e) rest' t ->
      main fs (s1 :: s2 :: s3 :: s4 :: s5 :: s6 :: rest)
      = mkOutcome (Ok tt) rest'
          (header ++ asking 6 ++ t
           ++ [EPrint (if exn_is_ValueError e then invalid_number_message
                       else failure_message e)])).
Proof.
  split.
  - intros i. rewrite main_run.
    now destruct (main_body fs i) as [[[]|e] rest t].
  - intros s1 s2 s3 s4 s5 s6 v1 v2 v3 v4 v5 v6 rest e rest' t
      H1 H2 H3 H4 H5 H6 Hrun.
    rewrite main_run, (main_body_parsed fs _ _ _ _ _ _ _ _ _ _ _ _ rest
                         H1 H2 H3 H4 H5 H6), Hrun.
    reflexivity.
Qed.

(** A [ValueError] raised by a load does not reach [main] as one: the tool
    wraps it in a plain [Exception], which the second handler reports. *)
Lemma load_error_is_reported_generically (fs : filesystem)
  (s1 s2 s3 s4 s5 s6 : string) (v1 v2 v3 v4 v5 v6 : scalar)
  (rest : list string) (e : exn) :
  float_ s1 = Some v1 -> float_ s2 = Some v2 -> float_ s3 = Some v3 ->
  float_ s4 = Some v4 -> float_ s5 = Some v5 -> float_ s6 = Some v6 ->
  path_exists fs "models" = true ->
  load_names fs "models/feature_names.joblib" = Raise e ->
  main fs (s1 :: s2 :: s3 :: s4 :: s5 :: s6 :: rest)
  = mkOutcome (Ok tt) rest
      (header ++ asking 6
       ++ [EExists "models"; ELoad "models/feature_names.joblib"]
       ++ [EPrint ("预测过程中出错: 加载模型时出错: " ++ exn_str e)]).
Proof.
  intros H1 H2 H3 H4 H5 H6 Hd Hn.
  rewrite main_run, (main_body_parsed fs _ _ _ _ _ _ _ _ _ _ _ _ rest
                       H1 H2 H3 H4 H5 H6).
  change (predict_nps_with_rf fs) with (tool RandomForest fs).
  rewrite tool_is_predictor_spec.
  now rewrite (predictor_names_fail _ _ fs _ rest e Hd Hn).
Qed.

(** ** More on the tools *)

(** The stages at which a run of a tool can end. *)
Lemma tool_stages (f : flavor) (fs : filesystem) (a : args)
  (i : list string) :
  (path_exists fs (artifact_dir f) = false /\
   tool f fs a i
   = mkOutcome
       (Raise (FileNotFoundError
                 ("找不到" ++ artifact_dir f ++ "目录，请先运行训练脚本")))
       i (firstn 1 (call_sequence f))) \/
  (exists e k,
      path_exists fs (artifact_dir f) = true /\
      load_failure f fs = Some e /\ 2 <= k <= 4 /\
      tool f fs a i
      = mkOutcome (Raise (Exception_ ("加载模型时出错: " ++ exn_str e))) i
          (firstn k (call_sequence f))) \/
  (exists names sc m,
      path_exists fs (artifact_dir f) = true /\
      load_names fs (names_path f) = Ok names /\
      load_scaler fs (scaler_path f) = Ok sc /\
      load_model fs (model_path f) = Ok m /\
      tool f fs a i
      = mkOutcome
          (and_then (getitem (DataFrame (input_data a)) names) (fun row =>
           and_then (transform sc row) (fun scaled_data =>
           and_then (predict m scaled_data) index0)))
          i
          (firstn 4 (call_sequence f) ++ inference_events names sc a)).
Proof.
  rewrite tool_is_predictor_spec. unfold load_failure.
  destruct (path_exists fs (artifact_dir f)) eqn:Hd.
  2:{ left. split; [reflexivity|].
      now rewrite (predictor_missing_dir _ _ fs a i Hd). }
  right.
  destruct (load_names fs (names_path f)) as [names|e] eqn:Hn.
  2:{ left. exists e, 2. repeat split; try lia.
      now rewrite (predictor_names_fail _ _ fs a i e Hd Hn). }
  destruct (load_scaler fs (scaler_path f)) as [sc|e] eqn:Hs.
  2:{ left. exists e, 3. repeat split; try lia.
      now rewrite (predictor_scaler_fail _ _ fs a i names e Hd Hn Hs). }
  destruct (load_model fs (model_path f)) as [m|e] eqn:Hm.
  2:{ left. exists e, 4. repeat split; try lia.
      now rewrite (predictor_model_fail _ _ fs a i names sc e Hd Hn Hs Hm). }
  right. exists names, sc, m. repeat split.
  now rewrite (predictor_loaded _ _ fs a i names sc m Hd Hn Hs Hm).
Qed.

Lemma tool_unread (f : flavor) (fs : filesystem) (a : args)
  (i : list string) :
  unread (tool f fs a i) = i.
Proof.
  destruct (tool_stages f fs a i)
    as [[_ ->]|[(e & k & _ & _ & _ & ->)|(names & sc & m & _ & _ & _ & _ & ->)]];
    reflexivity.
Qed.

Lemma tool_agree (f : flavor) (fs1 fs2 : filesystem) (a : args)
  (i : list string) :
  agree_on (artifact_dir f) fs1 fs2 -> tool f fs1 a i = tool f fs2 a i.
Proof.
  intros [Hd Hfiles]. rewrite !tool_is_predictor_spec.
  destruct (Hfiles "feature_names.joblib") as (Hn & _ & _).
  destruct (Hfiles "scaler.joblib") as (_ & Hs & _).
  destruct (Hfiles (model_file f)) as (_ & _ & Hm).
  simpl in Hn, Hs, Hm. run_tool. rewrite Hd, Hn, Hs, Hm. reflexivity.
Qed.

Lemma take_columns_ext (df df' : frame) (labels : list string) :
  (forall l, In l labels -> column df l = column df' l) ->
  take_columns df labels = take_columns df' labels.
Proof.
  induction labels as [|l ls IH]; intros H; [reflexivity|].
  simpl. rewrite (H l (or_introl eq_refl)), IH; [reflexivity|].
  intros l' Hl'. apply H. now right.
Qed.

Lemma getitem_ext (df df' : frame) (labels : list string) :
  (forall l, In l labels -> column df l = column df' l) ->
  getitem df labels = getitem df' labels.
Proof.
  intros H. unfold getitem. rewrite (take_columns_ext df df' labels H).
  destruct (take_columns df' labels); [reflexivity|].
  do 3 f_equal. apply filter_ext_in. intros l Hl.
  unfold has_column. now rewrite (H l Hl).
Qed.

(** X2. The calls of a run of either tool are an initial part of one
    fixed sequence: the look at the directory, the three loads in their
    order, the transform, the predict.  At least the first is made, none is
    made twice or out of order, and the console is left as it was. *)
Theorem tool_calls_follow_the_sequence (f : flavor) (fs : filesystem)
  (a : args) (i : list string) :
  exists k,
    1 <= k <= 6 /\
    events (tool f fs a i) = firstn k (call_sequence f) /\
    unread (tool f fs a i) = i.
Proof.
  destruct (tool_stages f fs a i)
    as [[_ ->]|[(e & k & _ & _ & Hk & ->)|(names & sc & m & _ & _ & _ & _ & ->)]].
  - exists 1. repeat split; lia.
  - exists k. repeat split; lia.
  - cbn [events unread]. unfold inference_events.
    destruct (getitem (DataFrame (input_data a)) names) as [row|e].
    + destruct (transform sc row).
      * exists 6. repeat split; lia.
      * exists 5. repeat split; lia.
    + exists 4. repeat split; lia.
Qed.

(** X3. Either tool returns a value exactly when its directory exists,
    the three artifacts load, every name of the list is a column, the
    transform and the predict return, and the predicted array is not
    empty; the value is the first element of the array, and the run has
    made the six calls of the sequence, each once. *)
Theorem tool_returns_exactly_when (f : flavor) (fs : filesystem)
  (a : args) (i : list string) (y : prediction) :
  (returned (tool f fs a i) = Ok y <->
   exists names sc m row scaled_data ys,
     path_exists fs (artifact_dir f) = true /\
     load_names fs (names_path f) = Ok names /\
     load_scaler fs (scaler_path f) = Ok sc /\
     load_model fs (model_path f) = Ok m /\
     getitem (DataFrame (input_data a)) names = Ok row /\
     transform sc row = Ok scaled_data /\
     predict m scaled_data = Ok (y :: ys)) /\
  (returned (tool f fs a i) = Ok y ->
   events (tool f fs a i) = call_sequence f).
Proof.
  destruct (tool_stages f fs a i)
    as [[Hd ->]|[(e & k & Hd & Hl & Hk & ->)
                |(names & sc & m & Hd & Hn & Hs & Hm & ->)]];
    cbn [returned events].
  - split; [split|]; try discriminate.
    intros (? & ? & ? & ? & ? & ? & Hd' & _). congruence.
  - split; [split|]; try discriminate.
    intros (names & sc & m & ? & ? & ? & _ & Hn & Hs & Hm & _).
    unfold load_failure in Hl. rewrite Hn, Hs, Hm in Hl. discriminate Hl.
  - unfold inference_events.
    destruct (getitem (DataFrame (input_data a)) names) as [row|e] eqn:Hg;
      cbn [and_then].
    2:{ split; [split|]; try discriminate.
        intros (? & ? & ? & ? & ? & ? & _ & Hn' & _ & _ & Hg' & _).
        congruence. }
    destruct (transform sc row) as [scaled|e] eqn:Ht; cbn [and_then].
    2:{ split; [split|]; try discriminate.
        intros (? & ? & ? & ? & ? & ? & _ & Hn' & Hs' & _ & Hg' & Ht' & _).
        congruence. }
    destruct (predict m scaled) as [out|e] eqn:Hp; cbn [and_then].
    2:{ split; [split|]; try discriminate.
        intros (? & ? & ? & ? & ? & ? & _ & Hn' & Hs' & Hm' & Hg' & Ht' & Hp').
        congruence. }
    destruct out as [|y0 ys]; cbn [index0].
    { split; [split|]; try discriminate.
      intros (? & ? & ? & ? & ? & ? & _ & Hn' & Hs' & Hm' & Hg' & Ht' & Hp').
      congruence. }
    split; [split|].
    + intros Hy. inversion Hy; subst y0.
      exists names, sc, m, row, scaled, ys. now repeat split.
    + intros (? & ? & ? & ? & ? & ? & _ & Hn' & Hs' & Hm' & Hg' & Ht' & Hp').
      congruence.
    + reflexivity.
Qed.

(** X4. An instance of [ValueError] that either tool raises was raised by
    the transform or by the predict: the missing directory, a failed load,
    a name that is no column and an empty predicted array all raise
    exceptions of other classes. *)
Theorem tool_ValueError_comes_from_the_model (f : flavor) (fs : filesystem)
  (a : args) (i : list string) (e : exn) :
  returned (tool f fs a i) = Raise e ->
  exn_is_ValueError e = true ->
  exists names sc m row,
    load_names fs (names_path f) = Ok names /\
    load_scaler fs (scaler_path f) = Ok sc /\
    load_model fs (model_path f) = Ok m /\
    getitem (DataFrame (input_data a)) names = Ok row /\
    (transform sc row = Raise e \/
     exists scaled_data,
       transform sc row = Ok scaled_data /\
       predict m scaled_data = Raise e).
Proof.
  intros Hret Hve.
  destruct (tool_stages f fs a i)
    as [[Hd Hrun]|[(e' & k & Hd & Hl & Hk & Hrun)
                  |(names & sc & m & Hd & Hn & Hs & Hm & Hrun)]];
    rewrite Hrun in Hret; cbn [returned] in Hret.
  - inversion Hret; subst e. discriminate Hve.
  - inversion Hret; subst e. discriminate Hve.
  - exists names, sc, m. unfold getitem in *.
    destruct (take_columns (DataFrame (input_data a)) names) as [row|].
    2:{ cbn [and_then] in Hret. inversion Hret; subst e. discriminate Hve. }
    exists row. repeat split; try assumption. cbn [and_then] in Hret.
    destruct (transform sc row) as [scaled|e1]; cbn [and_then] in Hret.
    2:{ left. congruence. }
    right. exists scaled. split; [reflexivity|].
    destruct (predict m scaled) as [[|y ys]|e1]; cbn [and_then index0] in Hret.
    + inversion Hret; subst e. discriminate Hve.
    + discriminate Hret.
    + congruence.
Qed.

(** X5. Either tool uses a parameter only through the feature-name list:
    two calls whose parameters agree under every name of the loaded list
    have the same outcome, whatever their other parameters. *)
Theorem tool_ignores_unlisted_parameters (f : flavor) (fs : filesystem)
  (a a' : args) (i : list string) (names : list string) :
  load_names fs (names_path f) = Ok names ->
  (forall n, In n names ->
             column (input_data a) n = column (input_data a') n) ->
  tool f fs a i = tool f fs a' i.
Proof.
  intros Hn Hagree. rewrite !tool_is_predictor_spec.
  destruct (path_exists fs (artifact_dir f)) eqn:Hd.
  2:{ now rewrite !(predictor_missing_dir _ _ fs _ i Hd). }
  destruct (load_scaler fs (scaler_path f)) as [sc|e] eqn:Hs.
  2:{ now rewrite !(predictor_scaler_fail _ _ fs _ i names e Hd Hn Hs). }
  destruct (load_model fs (model_path f)) as [m|e] eqn:Hm.
  2:{ now rewrite !(predictor_model_fail _ _ fs _ i names sc e Hd Hn Hs Hm). }
  rewrite !(predictor_loaded _ _ fs _ i names sc m Hd Hn Hs Hm).
  unfold inference_events.
  now rewrite (getitem_ext (DataFrame (input_data a))
                 (DataFrame (input_data a')) names Hagree).
Qed.

(** ** The invalid-number message *)





(** ** More on the console entry point *)

Lemma main_body_agree (fs1 fs2 : filesystem) (i : list string) :
  agree_on "models" fs1 fs2 -> main_body fs1 i = main_body fs2 i.
Proof.
  intros Hagree.
  destruct (read_cases 6 i)
    as [[Hlen Hall]|[(pre & s & rest & -> & Hlen & Hall & E)
                    |(pre & rest & -> & Hlen & Hall)]].
  - destruct (main_body_stops fs1 i Hlen Hall) as [-> _].
    now destruct (main_body_stops fs2 i Hlen Hall) as [-> _].
  - destruct (main_body_stops fs1 pre Hlen Hall) as [_ H1].
    destruct (main_body_stops fs2 pre Hlen Hall) as [_ H2].
    now rewrite (H1 s rest E), (H2 s rest E).
  - destruct pre as [|s1 [|s2 [|s3 [|s4 [|s5 [|s6 [|s7 pre]]]]]]];
      try discriminate Hlen.
    parsed_lines Hall. cbn [app].
    erewrite !main_body_parsed by eassumption.
    change (predict_nps_with_rf fs1) with (tool RandomForest fs1).
    change (predict_nps_with_rf fs2) with (tool RandomForest fs2).
    now rewrite (tool_agree RandomForest fs1 fs2 _ rest Hagree).
Qed.


(** X6. When the six lines parse and the tool returns a value that the
    format [.2f] refuses, the first line of the report is already written:
    [main] has printed the blank line and the banner, then prints the
    message of the handler that catches the error of the format, and
    returns. *)
Theorem format_error_interrupts_the_report (fs : filesystem)
  (s1 s2 s3 s4 s5 s6 : string) (v1 v2 v3 v4 v5 v6 : scalar)
  (rest rest' : list string) (t : list event) (y : prediction) (e : exn) :
  float_ s1 = Some v1 -> float_ s2 = Some v2 -> float_ s3 = Some v3 ->
  float_ s4 = Some v4 -> float_ s5 = Some v5 -> float_ s6 = Some v6 ->
  predict_nps_with_rf fs (mkArgs v1 v2 v3 v4 v5 v6) rest
  = mkOutcome (Ok y) rest' t ->
  format_2f y = Raise e ->
  main fs (s1 :: s2 :: s3 :: s4 :: s5 :: s6 :: rest)
  = mkOutcome (Ok tt) rest'
      (header ++ asking 6 ++ t
       ++ [EPrint (nl ++ banner);
           EPrint (if exn_is_ValueError e then invalid_number_message
                   else failure_message e)]).
Proof.
  intros H1 H2 H3 H4 H5 H6 Hrun Hfmt.
  rewrite main_run, (main_body_parsed fs _ _ _ _ _ _ _ _ _ _ _ _ rest
                       H1 H2 H3 H4 H5 H6), Hrun, Hfmt.
  cbv beta iota delta [after handler_message]. f_equal.
  now rewrite <- !app_assoc.
Qed.

(** X7. Whatever the console input and the file system, [main] writes
    its header, asks between one and six times, and asks no more after
    that: no line is asked for again.  The lines it leaves unread are those
    after the ones it asked for. *)
Theorem main_asks_at_most_six_times (fs : filesystem) (i : list string) :
  exists n tl,
    1 <= n <= 6 /\
    events (main fs i) = (header ++ asking n ++ tl)%list /\
    Forall (fun ev => forall p, ev <> EPrompt p) tl /\
    unread (main fs i) = skipn n i.
Proof.
  rewrite main_run.
  destruct (read_cases 6 i)
    as [[Hlen Hall]|[(pre & s & rest & -> & Hlen & Hall & E)
                    |(pre & rest & -> & Hlen & Hall)]].
  - destruct (main_body_stops fs i Hlen Hall) as [-> _].
    exists (S (length i)). eexists. split; [lia|]. cbn [events unread].
    split; [reflexivity|]. split.
    + constructor; [discriminate|constructor].
    + symmetry. apply skipn_all2. lia.
  - destruct (main_body_stops fs pre Hlen Hall) as [_ H].
    rewrite (H s rest E).
    exists (S (length pre)). eexists. split; [lia|]. cbn [events unread].
    split; [reflexivity|]. split.
    + constructor; [discriminate|constructor].
    + now rewrite skipn_past.
  - destruct pre as [|s1 [|s2 [|s3 [|s4 [|s5 [|s6 [|s7 pre]]]]]]];
      try discriminate Hlen.
    parsed_lines Hall. cbn [app].
    erewrite main_body_parsed by eassumption.
    pose proof (tool_events_are_calls RandomForest fs
                  (mkArgs v v0 v1 v2 v3 v4) rest) as Hcalls.
    pose proof (tool_unread RandomForest fs
                  (mkArgs v v0 v1 v2 v3 v4) rest) as Hrest.
    cbn [tool] in Hcalls, Hrest.
    assert (Hnp : forall l,
               Forall (fun ev => is_prediction_call ev = true) l ->
               Forall (fun ev => forall p, ev <> EPrompt p) l).
    { intros l Hl. eapply Forall_impl; [|exact Hl].
      intros ev Hev p Heq. subst ev. discriminate Hev. }
    destruct (predict_nps_with_rf fs (mkArgs v v0 v1 v2 v3 v4) rest)
      as [[y|e] rest' t]; cbn [events unread] in Hcalls, Hrest; subst rest'.
    + destruct (format_2f y) as [text|e]; cbv beta iota delta [after];
        exists 6; eexists; (split; [lia|]); cbn [events unread];
        (split; [rewrite <- ?app_assoc; reflexivity|]);
        (split; [|reflexivity]);
        repeat (apply Forall_app; split); auto;
        repeat (apply Forall_cons; [discriminate|]); apply Forall_nil.
    + cbv beta iota delta [after].
      exists 6. eexists. split; [lia|]. cbn [events unread].
      split; [rewrite <- ?app_assoc; reflexivity|].
      split; [|reflexivity].
      apply Forall_app. split; [auto|].
      repeat (apply Forall_cons; [discriminate|]). apply Forall_nil.
Qed.

(** X8. [main] depends on the file system through the [models] directory
    only: on two file systems that agree on it, [main] has the same
    outcome on every console input, whatever else differs, the directory
    of the other tool included. *)
Theorem main_depends_on_models_only (fs1 fs2 : filesystem)
  (i : list string) :
  agree_on "models" fs1 fs2 -> main fs1 i = main fs2 i.
Proof.
  intros Hagree.
  now rewrite !main_run, (main_body_agree fs1 fs2 i Hagree).
Qed.

(** X9. When the six lines parse, the [models] directory exists and one of
    the three loads raises, [main] reports the first such exception with
    the generic message, under both prefixes, whatever its class: also an
    instance of [ValueError] raised by a load is not answered with the
    invalid-number message.  Nothing was transformed or predicted. *)
Theorem load_failure_is_reported_generically (fs : filesystem)
  (s1 s2 s3 s4 s5 s6 : string) (v1 v2 v3 v4 v5 v6 : scalar)
  (rest : list string) (e : exn) :
  float_ s1 = Some v1 -> float_ s2 = Some v2 -> float_ s3 = Some v3 ->
  float_ s4 = Some v4 -> float_ s5 = Some v5 -> float_ s6 = Some v6 ->
  path_exists fs "models" = true ->
  load_failure RandomForest fs = Some e ->
  exists k,
    2 <= k <= 4 /\
    main fs (s1 :: s2 :: s3 :: s4 :: s5 :: s6 :: rest)
    = mkOutcome (Ok tt) rest
        (header ++ asking 6 ++ firstn k (call_sequence RandomForest)
         ++ [EPrint ("预测过程中出错: 加载模型时出错: " ++ exn_str e)]).
Proof.
  intros H1 H2 H3 H4 H5 H6 Hd Hl.
  rewrite main_run, (main_body_parsed fs _ _ _ _ _ _ _ _ _ _ _ _ rest
                       H1 H2 H3 H4 H5 H6).
  change (predict_nps_with_rf fs) with (tool RandomForest fs).
  destruct (tool_stages RandomForest fs (mkArgs v1 v2 v3 v4 v5 v6) rest)
    as [[Hd' _]|[(e' & k & _ & Hl' & Hk & ->)
                |(names & sc & m & _ & Hn & Hs & Hm & _)]].
  - cbn [artifact_dir] in Hd'. congruence.
  - assert (e' = e) by congruence. subst e'.
    exists k. split; [assumption|]. reflexivity.
  - unfold load_failure in Hl. rewrite Hn, Hs, Hm in Hl. discriminate Hl.
Qed.

(** X10. [main] looks at the path of the [models] directory only after
    the six lines are read: when they parse and [os.path.exists] finds
    nothing at that path, it has asked for all six before it reports the
    missing directory with the generic message. *)
Theorem missing_directory_is_found_after_the_prompts (fs : filesystem)
  (s1 s2 s3 s4 s5 s6 : string) (v1 v2 v3 v4 v5 v6 : scalar)
  (rest : list string) :
  float_ s1 = Some v1 -> float_ s2 = Some v2 -> float_ s3 = Some v3 ->
  float_ s4 = Some v4 -> float_ s5 = Some v5 -> float_ s6 = Some v6 ->
  path_exists fs "models" = false ->
  main fs (s1 :: s2 :: s3 :: s4 :: s5 :: s6 :: rest)
  = mkOutcome (Ok tt) rest
      (header ++ asking 6
       ++ [EExists "models";
           EPrint "预测过程中出错: 找不到models目录，请先运行训练脚本"]).
Proof.
  intros H1 H2 H3 H4 H5 H6 Hd.
  rewrite main_run, (main_body_parsed fs _ _ _ _ _ _ _ _ _ _ _ _ rest
                       H1 H2 H3 H4 H5 H6).
  change (predict_nps_with_rf fs) with (tool RandomForest fs).
  rewrite tool_is_predictor_spec.
  now rewrite (predictor_missing_dir _ _ fs _ rest Hd).
Qed.

End Properties.

(** * Examples: the properties at work on the small instance *)

#[local] Existing Instance Demo.library.

Lemma prediction_is_raw_model_output_witness :
  path_exists Demo.fs (artifact_dir RandomForest) = true /\
  load_names Demo.fs (names_path RandomForest) = Ok Demo.trained_names /\
  load_scaler Demo.fs (scaler_path RandomForest) = Ok Demo.scaler /\
  load_model Demo.fs (model_path RandomForest) = Ok Demo.model /\
  returned (tool RandomForest Demo.fs Demo.one_to_six []) = Ok (715 # 10)%Q.
Proof.
  exact (conj eq_refl (conj eq_refl (conj eq_refl (conj eq_refl
    (prediction_is_raw_model_output RandomForest Demo.fs Demo.one_to_six []
       Demo.trained_names Demo.scaler Demo.model
       eq_refl eq_refl eq_refl eq_refl))))).
Defined.

Lemma assembled_row_follows_feature_names_witness :
  (forall n, In n Demo.trained_names -> In n recognized_names) /\
  exists row,
    getitem (DataFrame (input_data Demo.one_to_six)) Demo.trained_names
    = Ok row /\
    map fst row = Demo.trained_names /\
    Forall (fun c => bound Demo.one_to_six (fst c) (snd c)) row /\
    forall d, Permutation (input_data Demo.one_to_six) d ->
              getitem (DataFrame d) Demo.trained_names = Ok row.
Proof.
  assert (H : forall n, In n Demo.trained_names -> In n recognized_names).
  { intros n Hn. simpl in Hn |- *. tauto. }
  exact (conj H (assembled_row_follows_feature_names
                   Demo.one_to_six Demo.trained_names H)).
Defined.

Lemma unknown_feature_name_raises_witness :
  (exists n, In n Demo.unknown_names /\ ~ In n recognized_names) /\
  exists msg,
    getitem (DataFrame (input_data Demo.one_to_six)) Demo.unknown_names
    = Raise (KeyError msg) /\
    tool RandomForest (Demo.fs_with Demo.unknown_names) Demo.one_to_six []
    = mkOutcome (Raise (KeyError msg)) []
        [EExists "models"; ELoad "models/feature_names.joblib";
         ELoad "models/scaler.joblib"; ELoad "models/random_forest.joblib"].
Proof.
  assert (H : exists n, In n Demo.unknown_names /\ ~ In n recognized_names).
  { exists "用户数". split; [right; now left|].
    intros Hin. simpl in Hin.
    repeat (destruct Hin as [Hin|Hin]; [discriminate Hin|]). exact Hin. }
  exact (conj H (unknown_feature_name_raises RandomForest
                   (Demo.fs_with Demo.unknown_names) Demo.one_to_six []
                   Demo.unknown_names Demo.scaler Demo.model
                   H eq_refl eq_refl eq_refl eq_refl)).
Defined.

Lemma missing_directory_raises_first_witness :
  path_exists Demo.fs_empty (artifact_dir Skynet) = false /\
  exists msg,
    tool Skynet Demo.fs_empty Demo.one_to_six []
    = mkOutcome (Raise (FileNotFoundError msg)) [] [EExists "skynet_model"] /\
    exists before after, msg = before ++ "skynet_model" ++ after.
Proof.
  exact (conj eq_refl
           (missing_directory_raises_first Skynet Demo.fs_empty
              Demo.one_to_six [] eq_refl)).
Defined.


Lemma main_predicts_from_six_lines_witness :
  float_ "1" = Some 1%Q /\ float_ "2" = Some 2%Q /\ float_ "3" = Some 3%Q /\
  float_ "4" = Some 4%Q /\ float_ "5" = Some 5%Q /\ float_ "6" = Some 6%Q /\
  predict_nps_with_rf Demo.fs (mkArgs 1%Q 2%Q 3%Q 4%Q 5%Q 6%Q) []
  = mkOutcome (Ok (715 # 10)%Q) []
      [EExists "models"; ELoad "models/feature_names.joblib";
       ELoad "models/scaler.joblib"; ELoad "models/random_forest.joblib";
       ETransform; EPredict] /\
  format_2f (715 # 10)%Q = Ok "71.50" /\
  main Demo.fs ["1"; "2"; "3"; "4"; "5"; "6"]
  = mkOutcome (Ok tt) []
      (header ++ asking 6
       ++ [EExists "models"; ELoad "models/feature_names.joblib";
           ELoad "models/scaler.joblib"; ELoad "models/random_forest.joblib";
           ETransform; EPredict]
       ++ [EPrint (nl ++ banner);
           EPrint "使用 Random Forest 模型预测的 NPS 打分: 71.50";
           EPrint banner]).
Proof.
  exact (conj eq_refl (conj eq_refl (conj eq_refl (conj eq_refl
          (conj eq_refl (conj eq_refl (conj eq_refl (conj eq_refl
    (main_predicts_from_six_lines Demo.fs 1%Q 2%Q 3%Q 4%Q 5%Q 6%Q [] []
       _ (715 # 10)%Q "71.50"
       eq_refl eq_refl eq_refl eq_refl eq_refl eq_refl
       eq_refl eq_refl))))))))).
Defined.

Lemma unparsable_line_aborts_session_witness :
  1 < 6 /\ nth_error ["1"; "abc"; "3"] 1 = Some "abc" /\
  float_ "abc" = None /\
  exists j,
    j <= 1 /\
    main Demo.fs ["1"; "abc"; "3"]
    = mkOutcome (Ok tt) (skipn (S j) ["1"; "abc"; "3"])
        (header ++ asking (S j) ++ [EPrint invalid_number_message]) /\
    Forall (fun ev => is_prediction_call ev = false)
      (events (main Demo.fs ["1"; "abc"; "3"])).
Proof.
  assert (H : 1 < 6) by lia.
  exact (conj H (conj eq_refl (conj eq_refl
    (unparsable_line_aborts_session Demo.fs ["1"; "abc"; "3"] 1 "abc"
       H eq_refl eq_refl)))).
Defined.

Lemma main_catches_every_error_witness :
  (forall i, returned (main Demo.fs_empty i) = Ok tt) /\
  float_ "1" = Some 1%Q /\ float_ "2" = Some 2%Q /\ float_ "3" = Some 3%Q /\
  float_ "4" = Some 4%Q /\ float_ "5" = Some 5%Q /\ float_ "6" = Some 6%Q /\
  predict_nps_with_rf Demo.fs_empty (mkArgs 1%Q 2%Q 3%Q 4%Q 5%Q 6%Q) []
  = mkOutcome
      (Raise (FileNotFoundError "找不到models目录，请先运行训练脚本")) []
      [EExists "models"] /\
  main Demo.fs_empty ["1"; "2"; "3"; "4"; "5"; "6"]
  = mkOutcome (Ok tt) []
      (header ++ asking 6 ++ [EExists "models"]
       ++ [EPrint "预测过程中出错: 找不到models目录，请先运行训练脚本"]).
Proof.
  exact (conj (proj1 (main_catches_every_error Demo.fs_empty))
    (conj eq_refl (conj eq_refl (conj eq_refl (conj eq_refl
    (conj eq_refl (conj eq_refl (conj eq_refl
      (proj2 (main_catches_every_error Demo.fs_empty)
         "1" "2" "3" "4" "5" "6" 1%Q 2%Q 3%Q 4%Q 5%Q 6%Q [] _ [] _
         eq_refl eq_refl eq_refl eq_refl eq_refl eq_refl eq_refl))))))))).
Defined.

Lemma flavors_share_logic_and_are_independent_witness :
  agree_on (artifact_dir RandomForest) Demo.fs Demo.fs_corrupt_skynet /\
  tool RandomForest Demo.fs Demo.one_to_six []
  = tool RandomForest Demo.fs_corrupt_skynet Demo.one_to_six [].
Proof.
  assert (H : agree_on (artifact_dir RandomForest)
                Demo.fs Demo.fs_corrupt_skynet).
  { split; [reflexivity|]. intros file. repeat split; reflexivity. }
  exact (conj H
           (proj2 (flavors_share_logic_and_are_independent RandomForest)
              Demo.fs Demo.fs_corrupt_skynet Demo.one_to_six [] H)).
Defined.



Lemma tool_returns_exactly_when_witness :
  returned (tool RandomForest Demo.fs Demo.one_to_six []) = Ok (715 # 10)%Q /\
  events (tool RandomForest Demo.fs Demo.one_to_six [])
  = call_sequence RandomForest.
Proof.
  exact (conj eq_refl
           (proj2 (tool_returns_exactly_when RandomForest Demo.fs
                     Demo.one_to_six [] (715 # 10)%Q) eq_refl)).
Defined.

Lemma tool_ValueError_comes_from_the_model_witness :
  returned (tool RandomForest (Demo.fs_with Demo.five_names)
              Demo.one_to_six [])
  = Raise (ValueError "X has a number of features other than the one StandardScaler is expecting") /\
  exists names sc m row,
    load_names (Demo.fs_with Demo.five_names) (names_path RandomForest)
    = Ok names /\
    load_scaler (Demo.fs_with Demo.five_names) (scaler_path RandomForest)
    = Ok sc /\
    load_model (Demo.fs_with Demo.five_names) (model_path RandomForest)
    = Ok m /\
    getitem (DataFrame (input_data Demo.one_to_six)) names = Ok row /\
    (transform sc row
     = Raise (ValueError "X has a number of features other than the one StandardScaler is expecting") \/
     exists scaled_data,
       transform sc row = Ok scaled_data /\
       predict m scaled_data
       = Raise (ValueError "X has a number of features other than the one StandardScaler is expecting")).
Proof.
  exact (conj eq_refl
           (tool_ValueError_comes_from_the_model RandomForest
              (Demo.fs_with Demo.five_names) Demo.one_to_six [] _
              eq_refl eq_refl)).
Defined.

Lemma tool_ignores_unlisted_parameters_witness :
  load_names (Demo.fs_with Demo.five_names) (names_path RandomForest)
  = Ok Demo.five_names /\
  (forall n, In n Demo.five_names ->
             column (input_data Demo.one_to_six) n
             = column (input_data Demo.one_to_five_and_99) n) /\
  tool RandomForest (Demo.fs_with Demo.five_names) Demo.one_to_six []
  = tool RandomForest (Demo.fs_with Demo.five_names)
      Demo.one_to_five_and_99 [].
Proof.
  assert (H : forall n, In n Demo.five_names ->
                column (input_data Demo.one_to_six) n
                = column (input_data Demo.one_to_five_and_99) n).
  { intros n Hn. simpl in Hn.
    repeat (destruct Hn as [Hn|Hn]; [subst n; reflexivity|]).
    contradiction. }
  exact (conj eq_refl (conj H
           (tool_ignores_unlisted_parameters RandomForest
              (Demo.fs_with Demo.five_names) Demo.one_to_six
              Demo.one_to_five_and_99 [] Demo.five_names eq_refl H))).
Defined.

Lemma format_error_interrupts_the_report_witness :
  @predict_nps_with_rf Demo.label_library Demo.fs_labels
    (@mkArgs Demo.label_library 1%Q 2%Q 3%Q 4%Q 5%Q 6%Q) []
  = mkOutcome (Ok "high") []
      [EExists "models"; ELoad "models/feature_names.joblib";
       ELoad "models/scaler.joblib"; ELoad "models/random_forest.joblib";
       ETransform; EPredict] /\
  @format_2f Demo.label_library "high"
  = Raise (ValueError "Unknown format code 'f' for object of type 'str'") /\
  @main Demo.label_library Demo.fs_labels ["1"; "2"; "3"; "4"; "5"; "6"]
  = mkOutcome (Ok tt) []
      (header ++ asking 6
       ++ [EExists "models"; ELoad "models/feature_names.joblib";
           ELoad "models/scaler.joblib"; ELoad "models/random_forest.joblib";
           ETransform; EPredict]
       ++ [EPrint (nl ++ banner); EPrint invalid_number_message]).
Proof.
  exact (conj eq_refl (conj eq_refl
    (@format_error_interrupts_the_report Demo.label_library Demo.fs_labels
       "1" "2" "3" "4" "5" "6" 1%Q 2%Q 3%Q 4%Q 5%Q 6%Q [] [] _ "high" _
       eq_refl eq_refl eq_refl eq_refl eq_refl eq_refl eq_refl eq_refl))).
Defined.

Lemma main_depends_on_models_only_witness :
  agree_on "models" Demo.fs Demo.fs_corrupt_skynet /\
  main Demo.fs ["1"; "2"; "3"; "4"; "5"; "6"]
  = main Demo.fs_corrupt_skynet ["1"; "2"; "3"; "4"; "5"; "6"].
Proof.
  assert (H : agree_on "models" Demo.fs Demo.fs_corrupt_skynet).
  { split; [reflexivity|]. intros file. repeat split; reflexivity. }
  exact (conj H (main_depends_on_models_only Demo.fs Demo.fs_corrupt_skynet
                   ["1"; "2"; "3"; "4"; "5"; "6"] H)).
Defined.

Lemma load_failure_is_reported_generically_witness :
  path_exists Demo.fs_newer_pickle "models" = true /\
  load_failure RandomForest Demo.fs_newer_pickle
  = Some (ValueError "unsupported pickle protocol: 5") /\
  exists k,
    2 <= k <= 4 /\
    main Demo.fs_newer_pickle ["1"; "2"; "3"; "4"; "5"; "6"]
    = mkOutcome (Ok tt) []
        (header ++ asking 6 ++ firstn k (call_sequence RandomForest)
         ++ [EPrint "预测过程中出错: 加载模型时出错: unsupported pickle protocol: 5"]).
Proof.
  exact (conj eq_refl (conj eq_refl
    (load_failure_is_reported_generically Demo.fs_newer_pickle
       "1" "2" "3" "4" "5" "6" 1%Q 2%Q 3%Q 4%Q 5%Q 6%Q [] _
       eq_refl eq_refl eq_refl eq_refl eq_refl eq_refl eq_refl eq_refl))).
Defined.

Lemma missing_directory_is_found_after_the_prompts_witness :
  path_exists Demo.fs_empty "models" = false /\
  main Demo.fs_empty ["1"; "2"; "3"; "4"; "5"; "6"]
  = mkOutcome (Ok tt) []
      (header ++ asking 6
       ++ [EExists "models";
           EPrint "预测过程中出错: 找不到models目录，请先运行训练脚本"]).
Proof.
  exact (conj eq_refl
    (missing_directory_is_found_after_the_prompts Demo.fs_empty
       "1" "2" "3" "4" "5" "6" 1%Q 2%Q 3%Q 4%Q 5%Q 6%Q []
       eq_refl eq_refl eq_refl eq_refl eq_refl eq_refl eq_refl)).
Defined.

(** C4, as it was stated, fails where the artifact directory does not
    exist but a regular file has its name: [os.path.exists] answers true
    there, so the tool goes on to load the feature names, and raises the
    wrapped error of that load, not the missing-directory error. *)
Lemma regular_file_named_models_is_read :
  shows Demo.models_is_a_file Demo.fs_models_is_a_file /\
  Demo.models_is_a_file (artifact_dir RandomForest) <> Directory /\
  tool RandomForest Demo.fs_models_is_a_file Demo.one_to_six []
  = mkOutcome
      (Raise (Exception_ "加载模型时出错: [Errno 20] Not a directory: 'models/feature_names.joblib'"))
      [] [EExists "models"; ELoad "models/feature_names.joblib"] /\
  ~ (exists msg,
        tool RandomForest Demo.fs_models_is_a_file Demo.one_to_six []
        = mkOutcome (Raise (FileNotFoundError msg)) []
            [EExists (artifact_dir RandomForest)]).
Proof.
  split; [intros p; reflexivity|]. split; [discriminate|].
  split; [reflexivity|]. intros [msg H]. discriminate H.
Qed.

